(** * Swipe-captcha challenge protocol ([api/index.py])

    A shallow embedding of the issue/verify protocol of [api/index.py]:
    the HMAC signer ([sign_challenge], [verify_signature]), the in-memory
    [challenges] store, [api_create] and [api_verify], followed by the
    properties the specification states about them.

    Conventions.
    - A Python [str] is a Rocq [string]; a character outside ASCII is held as
      the bytes of its UTF-8 encoding, so [str.encode()] is the identity on the
      representation and "ASCII only" means "every byte below 128".
      A [str] holding a lone surrogate has no such encoding and is not
      represented.
    - A Python [int] is a [Z].
    - The module-level dict [challenges] is threaded through explicitly: every
      handler takes the store and returns the store it leaves behind.
    - [time.time()], [uuid.uuid4()] are inputs of the handlers.
    - An exception that no [try] of the handler catches ends the request with
      the framework's 500 answer; it is the outcome [Raised]. *)

From Stdlib Require Import ZArith List String Ascii Lia DecimalString.
From Stdlib Require Import Floats.SpecFloat.
From stdpp Require Import gmap strings.
Import ListNotations.
Local Open Scope Z_scope.

(** ** Bytes *)

Definition bytes_of_string (s : string) : list Z :=
  map (fun c => Z.of_N (N_of_ascii c)) (list_ascii_of_string s).

(** ** SHA-256 (FIPS 180-4), the [hashlib.sha256] of the source *)

Module SHA256.

Definition wrap (x : Z) : Z := Z.land x 4294967295.

Definition rotr (n x : Z) : Z :=
  Z.lor (Z.shiftr x n) (wrap (Z.shiftl x (32 - n))).

Definition ch (e f g : Z) : Z :=
  Z.lxor (Z.land e f) (Z.land (Z.lxor e 4294967295) g).

Definition maj (a b c : Z) : Z :=
  Z.lxor (Z.lxor (Z.land a b) (Z.land a c)) (Z.land b c).

Definition big_sigma0 (x : Z) : Z :=
  Z.lxor (Z.lxor (rotr 2 x) (rotr 13 x)) (rotr 22 x).

Definition big_sigma1 (x : Z) : Z :=
  Z.lxor (Z.lxor (rotr 6 x) (rotr 11 x)) (rotr 25 x).

Definition small_sigma0 (x : Z) : Z :=
  Z.lxor (Z.lxor (rotr 7 x) (rotr 18 x)) (Z.shiftr x 3).

Definition small_sigma1 (x : Z) : Z :=
  Z.lxor (Z.lxor (rotr 17 x) (rotr 19 x)) (Z.shiftr x 10).

(** The round constants and the initial state are not tabulated: they are
    the first 32 fractional bits of the cube (resp. square) roots of the
    first 64 (resp. 8) primes, computed once from that definition. *)

Definition is_prime (n : Z) : bool :=
  (2 <=? n) &&
  forallb (fun d => negb (n mod d =? 0))
          (map Z.of_nat (seq 2 (Z.to_nat n - 2))).

Definition primes_upto (n : nat) : list Z :=
  filter is_prime (map Z.of_nat (seq 2 (n - 1))).

Fixpoint cube_root_bits (bits : nat) (n r : Z) : Z :=
  match bits with
  | O => r
  | S b =>
      let c := r + 2 ^ Z.of_nat b in
      cube_root_bits b n (if c * c * c <=? n then c else r)
  end.

Definition frac_cube_root (p : Z) : Z := wrap (cube_root_bits 40 (p * 2 ^ 96) 0).
Definition frac_square_root (p : Z) : Z := wrap (Z.sqrt (p * 2 ^ 64)).

Definition K : list Z := Eval vm_compute in map frac_cube_root (primes_upto 311).
Definition H0 : list Z := Eval vm_compute in map frac_square_root (primes_upto 19).

(** Padding: a one bit, zero bits up to 56 modulo 64 bytes, then the bit
    length as a 64-bit big-endian number. *)

Fixpoint big_endian (n : nat) (x : Z) : list Z :=
  match n with
  | O => []
  | S k => Z.land (Z.shiftr x (8 * Z.of_nat k)) 255 :: big_endian k x
  end.

Definition pad (msg : list Z) : list Z :=
  let len := Z.of_nat (length msg) in
  msg ++ 128 :: repeat 0 (Z.to_nat ((55 - len) mod 64)) ++ big_endian 8 (8 * len).

Fixpoint words (fuel : nat) (bs : list Z) : list Z :=
  match fuel, bs with
  | S k, b0 :: b1 :: b2 :: b3 :: rest =>
      (((b0 * 256 + b1) * 256 + b2) * 256 + b3) :: words k rest
  | _, _ => []
  end.

Fixpoint blocks (fuel : nat) (ws : list Z) : list (list Z) :=
  match fuel, ws with
  | S k, _ :: _ => firstn 16 ws :: blocks k (skipn 16 ws)
  | _, _ => []
  end.

(** Message schedule. The list is kept newest word first, so that
    [W(t-2)], [W(t-7)], [W(t-15)] and [W(t-16)] sit at positions 1, 6, 14
    and 15. *)
Fixpoint extend (n : nat) (w : list Z) : list Z :=
  match n with
  | O => w
  | S k =>
      extend k (wrap (small_sigma1 (nth 1 w 0) + nth 6 w 0
                      + small_sigma0 (nth 14 w 0) + nth 15 w 0) :: w)
  end.

Definition schedule (block : list Z) : list Z := rev (extend 48 (rev block)).

Record regs := Regs { ra : Z; rb : Z; rc : Z; rd : Z; re : Z; rf : Z; rg : Z; rh : Z }.

Definition round (s : regs) (kw : Z * Z) : regs :=
  let t1 := rh s + big_sigma1 (re s) + ch (re s) (rf s) (rg s) + fst kw + snd kw in
  let t2 := big_sigma0 (ra s) + maj (ra s) (rb s) (rc s) in
  Regs (wrap (t1 + t2)) (ra s) (rb s) (rc s) (wrap (rd s + t1)) (re s) (rf s) (rg s).

Definition regs_of_list (l : list Z) : regs :=
  Regs (nth 0 l 0) (nth 1 l 0) (nth 2 l 0) (nth 3 l 0)
       (nth 4 l 0) (nth 5 l 0) (nth 6 l 0) (nth 7 l 0).

Definition list_of_regs (s : regs) : list Z :=
  [ra s; rb s; rc s; rd s; re s; rf s; rg s; rh s].

Definition compress (h : list Z) (block : list Z) : list Z :=
  let s := fold_left round (combine K (schedule block)) (regs_of_list h) in
  map (fun p => wrap (fst p + snd p)) (combine h (list_of_regs s)).

Definition digest (msg : list Z) : list Z :=
  let ws := words (length msg + 72) (pad msg) in
  flat_map (big_endian 4) (fold_left compress (blocks (length ws) ws) H0).

End SHA256.

(** ** HMAC (RFC 2104) over SHA-256: [hmac.new(key, msg, hashlib.sha256)] *)

Definition hmac_sha256 (key msg : list Z) : list Z :=
  let k0 := if (64 <? Z.of_nat (length key)) then SHA256.digest key else key in
  let k := k0 ++ repeat 0 (64 - length k0) in
  SHA256.digest (map (Z.lxor 92) k ++ SHA256.digest (map (Z.lxor 54) k ++ msg)).

(** [.hexdigest()]: two lower-case hexadecimal digits per byte. *)

Definition hex_digit (n : Z) : ascii :=
  ascii_of_N (Z.to_N (if n <? 10 then 48 + n else 87 + n)).

Fixpoint hexdigest (bs : list Z) : string :=
  match bs with
  | [] => EmptyString
  | b :: rest => String (hex_digit (b / 16)) (String (hex_digit (b mod 16)) (hexdigest rest))
  end.

(** ** [base64.b64encode] (RFC 4648, standard alphabet, [=] padding) *)

Definition b64_char (n : Z) : ascii :=
  ascii_of_N (Z.to_N
    (if n <? 26 then 65 + n
     else if n <? 52 then 71 + n
     else if n <? 62 then n - 4
     else if n =? 62 then 43 else 47)).

Fixpoint b64encode (bs : list Z) : string :=
  match bs with
  | [] => EmptyString
  | [b0] =>
      String (b64_char (b0 / 4))
        (String (b64_char (b0 mod 4 * 16)) "==")
  | [b0; b1] =>
      String (b64_char (b0 / 4))
        (String (b64_char (b0 mod 4 * 16 + b1 / 16))
           (String (b64_char (b1 mod 16 * 4)) "="))
  | b0 :: b1 :: b2 :: rest =>
      String (b64_char (b0 / 4))
        (String (b64_char (b0 mod 4 * 16 + b1 / 16))
           (String (b64_char (b1 mod 16 * 4 + b2 / 64))
              (String (b64_char (b2 mod 64)) (b64encode rest))))
  end.

(** ** JSON values, as [request.get_json] hands them to the handler *)

#[local] Set Warnings "-register-all".

Inductive json : Type :=
| JNull
| JBool (b : bool)
| JInt (n : Z)
| JFloat (x : spec_float)
| JStr (s : string)
| JList (items : list json)
| JDict (entries : list (string * json)).

(** [d[key]], [None] standing for [KeyError]; the first binding of a key is
    the dict's. *)
Fixpoint dict_item (d : list (string * json)) (key : string) : option json :=
  match d with
  | [] => None
  | (k, v) :: rest => if String.eqb k key then Some v else dict_item rest key
  end.

(** [d.get(key, default)]. *)
Definition dict_get (d : list (string * json)) (key : string) (default : json) : json :=
  match dict_item d key with
  | Some v => v
  | None => default
  end.

(** ** The Python operations the handler applies to those values *)

(** Truth value testing: [None], [False], zero of any numeric type and empty
    strings and containers are false. *)
Definition truthy (v : json) : bool :=
  match v with
  | JNull => false
  | JBool b => b
  | JInt n => negb (n =? 0)
  | JFloat (S754_zero _) => false
  | JFloat _ => true
  | JStr EmptyString => false
  | JStr _ => true
  | JList [] => false
  | JList _ => true
  | JDict [] => false
  | JDict _ => true
  end.

(** [int(x)] for a float: truncation towards zero; [nan] and the infinities
    raise. *)
Definition float_trunc (x : spec_float) : option Z :=
  match x with
  | S754_zero _ => Some 0
  | S754_finite neg m e =>
      let a := if 0 <=? e then Z.pos m * 2 ^ e else Z.pos m / 2 ^ (- e) in
      Some (if neg then - a else a)
  | S754_infinity _ | S754_nan => None
  end.

(** What is left to the interpreter: reading an [int] out of a [str]
    ([int(s)], which knows about surrounding blanks, underscores and the
    decimal digits of every script), and the text of a float, a list or a
    dict ([str(x)]). Nothing below depends on what they answer. *)
Class PyRuntime := {
  int_of_str : string -> option Z;
  repr_of : json -> string
}.

Definition decimal (n : Z) : string := NilZero.string_of_int (Z.to_int n).

(** The first byte of a UTF-8 encoded character tells its width. *)
Definition utf8_width (c : ascii) : nat :=
  let n := Z.of_N (N_of_ascii c) in
  if n <? 192 then 1%nat else if n <? 224 then 2%nat else if n <? 240 then 3%nat else 4%nat.

(** [s[i]] on a [str]: the [i]-th character, [None] for [IndexError]. *)
Fixpoint str_item (fuel : nat) (s : string) (i : nat) : option string :=
  match fuel, s with
  | S fuel', String c _ =>
      let w := utf8_width c in
      match i with
      | O => Some (String.substring 0 w s)
      | S i' => str_item fuel' (String.substring w (String.length s - w) s) i'
      end
  | _, _ => None
  end.

Section Runtime.
Context `{PyRuntime}.

(** [int(v)]; [None] stands for the [TypeError], [ValueError] or
    [OverflowError] it raises. *)
Definition py_int (v : json) : option Z :=
  match v with
  | JInt n => Some n
  | JBool b => Some (if b then 1 else 0)
  | JFloat x => float_trunc x
  | JStr s => int_of_str s
  | JNull | JList _ | JDict _ => None
  end.

(** [str(v)], which is what an f-string field [{v}] expands to. *)
Definition py_str (v : json) : string :=
  match v with
  | JStr s => s
  | JInt n => decimal n
  | JBool true => "True"
  | JBool false => "False"
  | JNull => "None"
  | JFloat _ | JList _ | JDict _ => repr_of v
  end.

(** [p[i]] for an integer [i]; [None] stands for [IndexError], or for the
    [TypeError] of a value that cannot be subscripted. *)
Definition py_item (p : json) (i : nat) : option json :=
  match p with
  | JList l => nth_error l i
  | JStr s => option_map JStr (str_item (String.length s) s i)
  | _ => None
  end.

End Runtime.

(** ** Configuration and store *)

Definition SECRET_KEY : list Z := bytes_of_string "replace_this_with_a_real_secret".

(** The value kept under a challenge id:
    [{ "created": ts_sec, "min_drag": int, "secret": str }]. *)
Record meta := Meta { created : Z; min_drag : Z; secret : string }.

(** [challenges.get(key)]. The keys of the store are strings, so an int, a
    float, a bool or [None] finds nothing; a list or a dict cannot be hashed
    and the lookup raises [TypeError] (the outer [None]). *)
Definition challenges_get (challenges : gmap string meta) (key : json)
  : option (option meta) :=
  match key with
  | JStr k => Some (challenges !! k)
  | JList _ | JDict _ => None
  | _ => Some None
  end.

(** [challenges.pop(key, None)]. An empty dict answers the default before it
    hashes the key; otherwise a list or a dict raises the same [TypeError]. *)
Definition challenges_pop (challenges : gmap string meta) (key : json)
  : option (gmap string meta) :=
  match key with
  | JStr k => Some (delete k challenges)
  | JList _ | JDict _ =>
      if decide (size challenges = 0%nat) then Some challenges else None
  | _ => Some challenges
  end.

(** ** Answers *)

Inductive error :=
| bad_request | missing_params | bad_timestamp | expired | invalid_signature
| invalid_proof | malformed_points | bad_timing | too_fast | too_slow | incomplete.

Inductive response :=
| Success (token : string)      (* {"success": True, "token": token} *)
| Failure (e : error)           (* {"success": False, "error": e} *)
| Raised.                       (* an exception left the handler *)

Definition status (r : response) : Z :=
  match r with
  | Success _ => 200
  | Failure invalid_signature => 403
  | Failure _ => 400
  | Raised => 500
  end.

Record challenge := Challenge {
  challenge_id : string;
  timestamp : Z;
  signature : string;
  expires_in : Z
}.

(** ** Helpers *)

Definition is_ascii (s : string) : bool :=
  forallb (fun c => Z.of_N (N_of_ascii c) <? 128) (list_ascii_of_string s).

(** [hmac.compare_digest(a, b)] with [a] a [str]: both arguments must be
    [str] and ASCII only, otherwise it raises [TypeError] ([None]). *)
Definition compare_digest (a : string) (b : json) : option bool :=
  match b with
  | JStr s => if is_ascii a && is_ascii s then Some (String.eqb a s) else None
  | _ => None
  end.

(** [proof != expected_proof]: a value that is not a [str] differs from
    every [str]. *)
Definition differs (v : json) (s : string) : bool :=
  match v with
  | JStr t => negb (String.eqb t s)
  | _ => true
  end.

(** The loop
    [for i in range(1, len(times)): if times[i] <= times[i-1]: return ...]
    runs to its end exactly when this is [true]. *)
Fixpoint increasing (times : list Z) : bool :=
  match times with
  | a :: (b :: _) as rest => if b <=? a then false else increasing rest
  | _ => true
  end.

Section Handlers.
Context `{PyRuntime}.

(** The arguments are the values of the request, whatever their type: the
    annotations of the source are not enforced. *)
Definition sign_challenge (challenge_id : json) (ts : Z) : string :=
  let msg := bytes_of_string (py_str challenge_id +:+ "|" +:+ decimal ts) in
  hexdigest (hmac_sha256 SECRET_KEY msg).

Definition verify_signature (challenge_id : json) (ts : Z) (signature : json)
  : option bool :=
  let expected := sign_challenge challenge_id ts in
  compare_digest expected signature.

(** [api_create]; [cid] is [str(uuid.uuid4())], [now] is [int(time.time())]
    and [rand] the bytes of the second uuid. *)
Definition api_create (challenges : gmap string meta)
           (cid : string) (now : Z) (rand : list Z)
  : challenge * gmap string meta :=
  let ts := now in
  let sig := sign_challenge (JStr cid) ts in
  (Challenge cid ts sig 120,
   <[cid := Meta ts 230 (b64encode rand)]> challenges).

(** [int(p['t']) if isinstance(p, dict) else int(p[0])], and the same for
    ['x'] and [1]. *)
Definition sample_field (key : string) (index : nat) (p : json) : option Z :=
  match p with
  | JDict d => dict_item d key ≫= py_int
  | _ => py_item p index ≫= py_int
  end.

(** The two comprehensions under [try]; [None] is the [except] branch. *)
Definition parse_points (points : list json) : option (list Z * list Z) :=
  times ← mapM (sample_field "t" 0) points;
  xs ← mapM (sample_field "x" 1) points;
  Some (times, xs).

Definition expected_proof (challenge_id : json) : string :=
  b64encode (bytes_of_string ("swiped-" +:+ py_str challenge_id)).

Definition final_token (challenge_id : json) : string :=
  hexdigest (hmac_sha256 SECRET_KEY (bytes_of_string (py_str challenge_id))).

(** [api_verify]. [body] is the result of [request.get_json(force=True)],
    [None] when it raised; [now] is [int(time.time())]. *)
Definition api_verify (challenges : gmap string meta) (now : Z) (body : option json)
  : response * gmap string meta :=
  match body with
  | None => (Failure bad_request, challenges)
  | Some (JDict data) =>
      let challenge_id := dict_get data "challenge_id" JNull in
      let timestamp := dict_get data "timestamp" JNull in
      let signature := dict_get data "signature" JNull in
      let proof := dict_get data "proof" (JStr "") in
      let points := dict_get data "points" (JList []) in
      if negb (truthy challenge_id && truthy timestamp && truthy signature) then
        (Failure missing_params, challenges)
      else
      match py_int timestamp with
      | None => (Failure bad_timestamp, challenges)
      | Some ts =>
      if now - ts >? 120 then (Failure expired, challenges) else
      match verify_signature challenge_id ts signature with
      | None => (Raised, challenges)
      | Some false => (Failure invalid_signature, challenges)
      | Some true =>
      if differs proof (expected_proof challenge_id) then
        (Failure invalid_proof, challenges)
      else
      let success :=
        match challenges_pop challenges challenge_id with
        | None => (Raised, challenges)
        | Some challenges' => (Success (final_token challenge_id), challenges')
        end in
      match points with
      | JList ((_ :: _) as points) =>
          match parse_points points with
          | None => (Failure malformed_points, challenges)
          | Some (times, xs) =>
          if negb (increasing times) then (Failure bad_timing, challenges) else
          let total_ms := List.last times 0 - List.hd 0 times in
          if total_ms <? 60 then (Failure too_fast, challenges) else
          if total_ms >? 10000 then (Failure too_slow, challenges) else
          match challenges_get challenges challenge_id with
          | None => (Raised, challenges)
          | Some meta =>
          let min_drag := match meta with Some m => min_drag m | None => 230 end in
          let final_x := List.last xs 0 in
          if final_x <? min_drag then (Failure incomplete, challenges) else
          success
          end
          end
      | _ => success
      end
      end
      end
  | Some _ => (Raised, challenges)
  end.

End Handlers.

(** ** The conditions of the handler, named *)

Section Conditions.
Context `{PyRuntime}.

(** The request gets through the parameter check, the timestamp
    conversion, the expiry test, the signature test and the proof test
    (lines 232 to 251), [ts] being [int(timestamp)]. *)
Definition passes_envelope (now : Z) (data : list (string * json)) (ts : Z) : Prop :=
  let challenge_id := dict_get data "challenge_id" JNull in
  let timestamp := dict_get data "timestamp" JNull in
  let signature := dict_get data "signature" JNull in
  let proof := dict_get data "proof" (JStr "") in
  truthy challenge_id && truthy timestamp && truthy signature = true
  /\ py_int timestamp = Some ts
  /\ now - ts <= 120
  /\ verify_signature challenge_id ts signature = Some true
  /\ differs proof (expected_proof challenge_id) = false.

End Conditions.

(** Every sample's time is below the next one's. *)
Definition strictly_increasing (times : list Z) : Prop :=
  forall i a b, times !! i = Some a -> times !! S i = Some b -> a < b.

(** [min_drag = meta.get('min_drag') if meta else 230]. *)
Definition threshold (meta : option meta) : Z :=
  match meta with
  | Some m => min_drag m
  | None => 230
  end.

(** The rejections that come from the checks on [points] (lines 255 to 279). *)
Definition from_trace (e : error) : bool :=
  match e with
  | malformed_points | bad_timing | too_fast | too_slow | incomplete => true
  | _ => false
  end.

(** ** The request of the page (the script of [serve_captcha], lines 135 to 172) *)

(** One recorded point, [{t: Date.now(), x: Math.round(x)}]. *)
Definition point (p : Z * Z) : json := JDict [("t", JInt p.1); ("x", JInt p.2)].

(** The same sample as a pair [[t, x]], the other form [api_verify] reads. *)
Definition pair (p : Z * Z) : json := JList [JInt p.1; JInt p.2].

(** [btoa(s)], for a string of ASCII characters. *)
Definition btoa (s : string) : string := b64encode (bytes_of_string s).

(** The [payload] object posted to [/api/captcha/verify], [c] being the
    answer of [/api/captcha/create] and [points] the recorded swipe. *)
Definition page_payload (c : challenge) (points : list (Z * Z))
  : list (string * json) :=
  [("challenge_id", JStr (challenge_id c));
   ("timestamp", JInt (timestamp c));
   ("signature", JStr (signature c));
   ("proof", JStr (btoa ("swiped-" +:+ challenge_id c)));
   ("points", JList (map point points))].

(** ** The shape of a hexadecimal digest *)

Definition is_hex_digit (c : ascii) : bool :=
  let n := Z.of_N (N_of_ascii c) in
  ((48 <=? n) && (n <=? 57)) || ((97 <=? n) && (n <=? 102)).

Definition lower_hex (s : string) : bool :=
  forallb is_hex_digit (list_ascii_of_string s).

(** ** A runtime and requests to run the handlers on *)

Fixpoint digits_value (acc : Z) (s : string) : option Z :=
  match s with
  | EmptyString => Some acc
  | String c rest =>
      let n := Z.of_N (N_of_ascii c) in
      if (48 <=? n) && (n <=? 57) then digits_value (acc * 10 + (n - 48)) rest else None
  end.

(** Plain decimal literals, which is all the requests below contain
    ([int] itself reads more than these). *)
Definition plain_int (s : string) : option Z :=
  match s with
  | EmptyString => None
  | String "-" (String _ _ as rest) => Z.opp <$> digits_value 0 rest
  | _ => digits_value 0 s
  end.

(** No request below has a float, a list or a dict for an id, so the text of
    those is never asked for. *)
Definition plain_runtime : PyRuntime :=
  {| int_of_str := plain_int; repr_of := fun _ => "" |}.

Module Sample.

Definition cid : string := "3f2b8c1e-5d4a-4e6f-9a7b-0c1d2e3f4a5b".
Definition issued : Z := 1700000000.

(** The store and the answer of [api_create] on an empty store. *)
Definition creation : challenge * gmap string meta :=
  @api_create plain_runtime ∅ cid issued (repeat 7 16).

Definition store : gmap string meta := snd creation.

(** What the page posts back: the three values of the answer, the proof
    [btoa('swiped-' + id)] and, when given, the recorded points. *)
Definition envelope : list (string * json) :=
  [("challenge_id", JStr (challenge_id (fst creation)));
   ("timestamp", JInt (timestamp (fst creation)));
   ("signature", JStr (signature (fst creation)));
   ("proof", JStr (b64encode (bytes_of_string ("swiped-" +:+ cid))))].

Definition sample (t x : Z) : json := JDict [("t", JInt t); ("x", JInt x)].

Definition with_points (points : json) : list (string * json) :=
  envelope ++ [("points", points)].

Definition token : string := @final_token plain_runtime (JStr cid).

(** The letter e with an acute accent (code point 233), as UTF-8. *)
Definition e_acute : string := String "195" (String "169" EmptyString).

End Sample.

(** * Properties *)

(** Known answers: FIPS 180-4 ("abc"), RFC 4231 test case 2, RFC 4648. *)

Example sha256_abc :
  hexdigest (SHA256.digest (bytes_of_string "abc"))
  = "ba7816bf8f01cfea414140de5dae2223b00361a396177a9cb410ff61f20015ad".
Proof. vm_compute. reflexivity. Qed.

Example sha256_empty :
  hexdigest (SHA256.digest [])
  = "e3b0c44298fc1c149afbf4c8996fb92427ae41e4649b934ca495991b7852b855".
Proof. vm_compute. reflexivity. Qed.

Example sha256_two_blocks :
  hexdigest (SHA256.digest (bytes_of_string
    "abcdbcdecdefdefgefghfghighijhijkijkljklmklmnlmnomnopnopq"))
  = "248d6a61d20638b8e5c026930c3e6039a33ce45964ff2167f6ecedd419db06c1".
Proof. vm_compute. reflexivity. Qed.

Example hmac_rfc4231_case2 :
  hexdigest (hmac_sha256 (bytes_of_string "Jefe")
                         (bytes_of_string "what do ya want for nothing?"))
  = "5bdcc146bf60754e6a042426089575c75a003f089d2739839dec58b964ec3843".
Proof. vm_compute. reflexivity. Qed.

Example b64_rfc4648 :
  map (fun s => b64encode (bytes_of_string s)) ["f"; "fo"; "foo"; "foob"; "fooba"; "foobar"]
  = ["Zg=="; "Zm8="; "Zm9v"; "Zm9vYg=="; "Zm9vYmE="; "Zm9vYmFy"].
Proof. vm_compute. reflexivity. Qed.

(** ** The signer *)

Lemma big_endian_bytes n x : Forall (fun b => 0 <= b < 256) (SHA256.big_endian n x).
Proof.
  induction n as [|n IH]; simpl; constructor; [|exact IH].
  change 255 with (Z.ones 8). rewrite Z.land_ones by lia.
  apply Z.mod_pos_bound. lia.
Qed.

Lemma digest_bytes msg : Forall (fun b => 0 <= b < 256) (SHA256.digest msg).
Proof.
  unfold SHA256.digest. cbv zeta.
  generalize (fold_left SHA256.compress
    (SHA256.blocks (length (SHA256.words (length msg + 72) (SHA256.pad msg)))
       (SHA256.words (length msg + 72) (SHA256.pad msg))) SHA256.H0).
  intros ws. induction ws as [|w ws IH]; cbn [flat_map].
  - constructor.
  - apply Forall_app. split; [apply big_endian_bytes | exact IH].
Qed.

Lemma hmac_bytes key msg : Forall (fun b => 0 <= b < 256) (hmac_sha256 key msg).
Proof. unfold hmac_sha256. cbv zeta. apply digest_bytes. Qed.

Lemma hex_digit_ascii n :
  0 <= n < 16 -> (Z.of_N (N_of_ascii (hex_digit n)) <? 128) = true.
Proof.
  intros Hn. unfold hex_digit.
  rewrite N_ascii_embedding by (destruct (n <? 10); lia).
  apply Z.ltb_lt. destruct (n <? 10); lia.
Qed.

Lemma hexdigest_ascii bs :
  Forall (fun b => 0 <= b < 256) bs -> is_ascii (hexdigest bs) = true.
Proof.
  unfold is_ascii. induction 1 as [|b bs Hb _ IH]; simpl; [reflexivity|].
  rewrite !hex_digit_ascii, IH; [reflexivity| |].
  - apply Z.mod_pos_bound. lia.
  - split; [apply Z.div_pos; lia | apply Z.div_lt_upper_bound; lia].
Qed.

Section Signer.
Context `{PyRuntime}.

Lemma sign_challenge_ascii id ts : is_ascii (sign_challenge id ts) = true.
Proof. apply hexdigest_ascii, hmac_bytes. Qed.

Lemma verify_signature_true id ts sig :
  verify_signature id ts sig = Some true <-> sig = JStr (sign_challenge id ts).
Proof.
  unfold verify_signature, compare_digest. cbv zeta. split.
  - destruct sig as [| | | |s| |]; try discriminate.
    rewrite sign_challenge_ascii. cbn [andb].
    destruct (is_ascii s); [|discriminate]. intros E.
    assert (E' : String.eqb (sign_challenge id ts) s = true) by congruence.
    apply String.eqb_eq in E'. congruence.
  - intros ->. rewrite sign_challenge_ascii. cbn [andb].
    now rewrite String.eqb_refl.
Qed.

End Signer.

(** ** Truth values *)

(** The values that count as false are [None], [False], the zeros and the
    empty string, list and dict; a key that is absent reads as [None]. *)
Lemma truthy_false v :
  truthy v = false
  <-> v = JNull \/ v = JBool false \/ v = JInt 0
      \/ (exists sign, v = JFloat (S754_zero sign))
      \/ v = JStr "" \/ v = JList [] \/ v = JDict [].
Proof.
  split.
  - destruct v as [|[]|n|[]|[]|[]|[]]; cbn; try discriminate; eauto 10.
    destruct (Z.eqb_spec n 0); [subst; eauto | discriminate].
  - intros [->|[->|[->|[[sign ->]|[->|[->| ->]]]]]]; reflexivity.
Qed.

Lemma dict_get_absent d key : dict_item d key = None -> dict_get d key JNull = JNull.
Proof. unfold dict_get. now intros ->. Qed.

(** ** The trace checks *)

Lemma increasing_spec times : increasing times = true <-> strictly_increasing times.
Proof.
  unfold strictly_increasing. induction times as [|a [|b rest] IH].
  - split; [intros _ i x y Hx; destruct i; discriminate | reflexivity].
  - split; [intros _ [|i] x y Hx Hy; discriminate | reflexivity].
  - cbn [increasing]. destruct (Z.leb_spec b a) as [Hle|Hlt].
    + split; [discriminate|]. intros Hall.
      specialize (Hall 0%nat a b eq_refl eq_refl). lia.
    + rewrite IH. split.
      * intros Hall [|i] x y Hx Hy.
        -- injection Hx as <-. injection Hy as <-. exact Hlt.
        -- exact (Hall i x y Hx Hy).
      * intros Hall i x y Hx Hy. exact (Hall (S i) x y Hx Hy).
Qed.

Lemma not_increasing times i a b :
  times !! i = Some a -> times !! S i = Some b -> b <= a -> increasing times = false.
Proof.
  intros Ha Hb Hle. destruct (increasing times) eqn:E; [|reflexivity].
  apply increasing_spec in E. specialize (E i a b Ha Hb). lia.
Qed.

(** ** [api_verify], check by check *)

Section Verify.
Context `{PyRuntime}.
Implicit Types (challenges : gmap string meta) (data : list (string * json)).

(** Boolean tests of the handler, as facts. *)
Ltac bool_facts :=
  repeat match goal with
    | Hx : negb _ = false |- _ => apply negb_false_iff in Hx
    | Hx : negb _ = true |- _ => apply negb_true_iff in Hx
    | Hx : (_ >? _) = false |- _ => rewrite Z.gtb_ltb in Hx; apply Z.ltb_ge in Hx
    | Hx : (_ >? _) = true |- _ => rewrite Z.gtb_ltb in Hx; apply Z.ltb_lt in Hx
    | Hx : (_ <? _) = false |- _ => apply Z.ltb_ge in Hx
    | Hx : (_ <? _) = true |- _ => apply Z.ltb_lt in Hx
    end.

(** Unfold the handler on a request that gets through lines 232 to 251. *)
Ltac enter_envelope Henv :=
  let Hp := fresh "Hpresent" in
  let Hi := fresh "Hint" in
  let He := fresh "Hfresh" in
  let Hs := fresh "Hsig" in
  let Hd := fresh "Hproof" in
  destruct Henv as (Hp & Hi & He & Hs & Hd);
  unfold api_verify; cbv zeta;
  rewrite Hp, Hi; cbn [negb];
  let now := lazymatch type of He with ?n - _ <= _ => n end in
  let ts := lazymatch type of He with _ - ?t <= _ => t end in
  destruct (Z.gtb_spec (now - ts) 120); [lia|];
  rewrite Hs, Hd.

Lemma envelope_then_trace challenges now data ts points times xs :
  passes_envelope now data ts ->
  dict_get data "points" (JList []) = JList points ->
  points <> [] ->
  parse_points points = Some (times, xs) ->
  api_verify challenges now (Some (JDict data)) =
    if negb (increasing times) then (Failure bad_timing, challenges) else
    let total_ms := List.last times 0 - List.hd 0 times in
    if total_ms <? 60 then (Failure too_fast, challenges) else
    if total_ms >? 10000 then (Failure too_slow, challenges) else
    match challenges_get challenges (dict_get data "challenge_id" JNull) with
    | None => (Raised, challenges)
    | Some meta =>
        if List.last xs 0 <? threshold meta then (Failure incomplete, challenges) else
        match challenges_pop challenges (dict_get data "challenge_id" JNull) with
        | None => (Raised, challenges)
        | Some challenges' =>
            (Success (final_token (dict_get data "challenge_id" JNull)), challenges')
        end
    end.
Proof.
  intros Henv Hpoints Hne Hparse. enter_envelope Henv.
  rewrite Hpoints. destruct points as [|p points]; [congruence|].
  rewrite Hparse. reflexivity.
Qed.

Lemma envelope_then_success challenges now data ts :
  passes_envelope now data ts ->
  (forall p points, dict_get data "points" (JList []) <> JList (p :: points)) ->
  api_verify challenges now (Some (JDict data)) =
    match challenges_pop challenges (dict_get data "challenge_id" JNull) with
    | None => (Raised, challenges)
    | Some challenges' =>
        (Success (final_token (dict_get data "challenge_id" JNull)), challenges')
    end.
Proof.
  intros Henv Hpoints. enter_envelope Henv.
  destruct (dict_get data "points" (JList [])) as [| | | | |[|p points]|] eqn:E;
    try reflexivity.
  now destruct (Hpoints p points).
Qed.

(** A call either succeeds, with the token of the id, and returns what
    [pop] leaves of the store; or it does not succeed and returns the store
    it was given. *)
Lemma api_verify_store challenges now body :
  ((forall token, (api_verify challenges now body).1 <> Success token)
   /\ (api_verify challenges now body).2 = challenges)
  \/ exists data,
       body = Some (JDict data)
       /\ challenges_pop challenges (dict_get data "challenge_id" JNull)
          = Some (api_verify challenges now body).2
       /\ (api_verify challenges now body).1
          = Success (final_token (dict_get data "challenge_id" JNull)).
Proof.
  unfold api_verify; cbv zeta.
  repeat case_match; simplify_eq; cbn [fst snd]; eauto.
Qed.

(** A rejection that comes from the trace checks needs a non-empty list
    under [points]. *)
Lemma trace_error_needs_points challenges now data e :
  (api_verify challenges now (Some (JDict data))).1 = Failure e ->
  from_trace e = true ->
  exists p points, dict_get data "points" (JList []) = JList (p :: points).
Proof.
  unfold api_verify; cbv zeta.
  repeat case_match; simplify_eq; cbn [fst]; intros [= <-]; try discriminate; eauto.
Qed.

(** What a successful call went through. *)
Lemma success_inv challenges now data token challenges' :
  api_verify challenges now (Some (JDict data)) = (Success token, challenges') ->
  exists ts,
    passes_envelope now data ts
    /\ challenges_pop challenges (dict_get data "challenge_id" JNull) = Some challenges'
    /\ token = final_token (dict_get data "challenge_id" JNull)
    /\ ((forall p points, dict_get data "points" (JList []) <> JList (p :: points))
        \/ exists p points times xs meta,
             dict_get data "points" (JList []) = JList (p :: points)
             /\ parse_points (p :: points) = Some (times, xs)
             /\ increasing times = true
             /\ 60 <= List.last times 0 - List.hd 0 times <= 10000
             /\ challenges_get challenges (dict_get data "challenge_id" JNull) = Some meta
             /\ threshold meta <= List.last xs 0).
Proof.
  unfold api_verify, passes_envelope; cbv zeta.
  repeat case_match; simplify_eq; intros [= <- <-]; bool_facts.
  all: eexists; repeat split; eauto.
  all: first [ left; intros p points; congruence
             | right; do 5 eexists; repeat split; eauto; simpl; lia ].
Qed.

Lemma pop_again challenges challenges' key :
  challenges_pop challenges key = Some challenges' ->
  challenges_pop challenges' key = Some challenges'.
Proof.
  destruct key; simpl; intros Hpop; try case_decide; simplify_eq;
    try reflexivity.
  - now rewrite delete_delete_eq.
  - now rewrite decide_True.
  - now rewrite decide_True.
Qed.

Lemma get_after_pop challenges challenges' key meta :
  challenges_get challenges key = Some meta ->
  challenges_pop challenges key = Some challenges' ->
  challenges_get challenges' key = Some None.
Proof.
  destruct key; simpl; intros Hget Hpop; simplify_eq; try reflexivity.
  now rewrite lookup_delete_eq.
Qed.

Lemma threshold_created challenges key meta :
  (forall k m, challenges !! k = Some m -> min_drag m = 230) ->
  challenges_get challenges key = Some meta ->
  threshold meta = 230.
Proof.
  intros Hstore. destruct key; simpl; intros Hget; simplify_eq; try reflexivity.
  destruct (challenges !! s) as [m|] eqn:E; [exact (Hstore _ _ E) | reflexivity].
Qed.

(** [api_create] keeps the store one in which every challenge asks for a
    drag of 230. *)
Lemma api_create_min_drag challenges cid now rand :
  (forall k m, challenges !! k = Some m -> min_drag m = 230) ->
  forall k m, (api_create challenges cid now rand).2 !! k = Some m -> min_drag m = 230.
Proof.
  intros Hstore k m. unfold api_create; cbv zeta; cbn [snd].
  rewrite lookup_insert. case_decide; [intros [= <-]; reflexivity | apply Hstore].
Qed.

(** ** The claims *)

(** C1. The specification asks that a proof bundle verified once be
    refused when it is sent again. The handler does not do that: on a
    store whose challenges all come from [api_create], a request that
    succeeded succeeds again, with the same token, as long as it has not
    expired; removing the entry changes nothing because no check looks the
    id up. *)
Theorem replay_accepted challenges now now' data ts token challenges' :
  (forall k m, challenges !! k = Some m -> min_drag m = 230) ->
  api_verify challenges now (Some (JDict data)) = (Success token, challenges') ->
  py_int (dict_get data "timestamp" JNull) = Some ts ->
  now' - ts <= 120 ->
  api_verify challenges' now' (Some (JDict data)) = (Success token, challenges').
Proof.
  intros Hstore Hfirst Hts Hnow.
  apply success_inv in Hfirst as (ts' & Henv & Hpop & -> & Hpoints).
  assert (Henv' : passes_envelope now' data ts).
  { destruct Henv as (Hp & Hi & _ & Hs & Hd).
    assert (ts' = ts) as -> by congruence. repeat split; assumption. }
  pose proof (pop_again _ _ _ Hpop) as Hpop'.
  destruct Hpoints as [Hnone | (p & points & times & xs & meta & Hpts & Hparse
                                 & Hinc & Htotal & Hget & Hx)].
  - rewrite (envelope_then_success _ _ _ _ Henv' Hnone), Hpop'. reflexivity.
  - rewrite (envelope_then_trace _ _ _ _ _ _ _ Henv' Hpts ltac:(discriminate) Hparse).
    rewrite Hinc. cbn [negb]. cbv zeta.
    destruct (Z.ltb_spec (List.last times 0 - List.hd 0 times) 60); [lia|].
    destruct (Z.gtb_spec (List.last times 0 - List.hd 0 times) 10000); [lia|].
    rewrite (get_after_pop _ _ _ _ Hget Hpop), Hpop'. cbn [threshold].
    rewrite (threshold_created _ _ _ Hstore Hget) in Hx.
    destruct (Z.ltb_spec (List.last xs 0) 230); [lia | reflexivity].
Qed.

(** C2, as amended. Once the parameters are there and the timestamp reads
    as [ts], a request is rejected as [expired] when more than 120 seconds
    have passed, and only then: at exactly 120 seconds, as at 119, it goes on
    to the signature check. *)
Theorem expiry_boundary challenges now data ts :
  truthy (dict_get data "challenge_id" JNull)
    && truthy (dict_get data "timestamp" JNull)
    && truthy (dict_get data "signature" JNull) = true ->
  py_int (dict_get data "timestamp" JNull) = Some ts ->
  (120 < now - ts ->
     api_verify challenges now (Some (JDict data)) = (Failure expired, challenges))
  /\ (now - ts <= 120 ->
        (api_verify challenges now (Some (JDict data))).1 <> Failure expired).
Proof.
  intros Hpresent Hts. unfold api_verify; cbv zeta.
  rewrite Hpresent, Hts; cbn [negb]. split; intros Hnow.
  - destruct (Z.gtb_spec (now - ts) 120); [reflexivity | lia].
  - destruct (Z.gtb_spec (now - ts) 120); [lia|].
    repeat case_match; discriminate.
Qed.

(** C3, as amended. The answer is [missing_params] exactly when the body
    is an object in which one of [challenge_id], [timestamp], [signature]
    is absent or false in Python's sense: [null], [false], a zero, an empty
    string, list or object. *)
Theorem missing_params_iff challenges now body :
  (api_verify challenges now body).1 = Failure missing_params
  <-> exists data,
        body = Some (JDict data)
        /\ truthy (dict_get data "challenge_id" JNull)
             && truthy (dict_get data "timestamp" JNull)
             && truthy (dict_get data "signature" JNull) = false.
Proof.
  split.
  - unfold api_verify; cbv zeta.
    repeat case_match; simplify_eq; cbn [fst]; try discriminate; bool_facts; eauto.
  - intros (data & -> & Hmissing). unfold api_verify; cbv zeta.
    now rewrite Hmissing.
Qed.

(** C4. On a request that reaches the trace checks with a trace that
    parses and whose times increase strictly: less than 60 ms between the
    first and the last sample is [too_fast], more than 10000 ms is
    [too_slow], and from 60 to 10000 ms, both included, neither. *)
Theorem timing_window challenges now data ts points times xs :
  passes_envelope now data ts ->
  dict_get data "points" (JList []) = JList points ->
  points <> [] ->
  parse_points points = Some (times, xs) ->
  strictly_increasing times ->
  let total_ms := List.last times 0 - List.hd 0 times in
  (total_ms < 60 ->
     api_verify challenges now (Some (JDict data)) = (Failure too_fast, challenges))
  /\ (10000 < total_ms ->
        api_verify challenges now (Some (JDict data)) = (Failure too_slow, challenges))
  /\ (60 <= total_ms <= 10000 ->
        (api_verify challenges now (Some (JDict data))).1 <> Failure too_fast
        /\ (api_verify challenges now (Some (JDict data))).1 <> Failure too_slow).
Proof.
  intros Henv Hpoints Hne Hparse Hinc total_ms.
  rewrite (envelope_then_trace _ _ _ _ _ _ _ Henv Hpoints Hne Hparse).
  apply increasing_spec in Hinc. rewrite Hinc. cbn [negb]. cbv zeta.
  fold total_ms.
  destruct (Z.ltb_spec total_ms 60), (Z.gtb_spec total_ms 10000);
    (split; [|split]); intros; try lia; try reflexivity.
  split; repeat case_match; discriminate.
Qed.

(** C5. With a string id, a trace that parses, increases strictly and
    lasts from 60 to 10000 ms: a last position below the [min_drag] stored
    for the id, or below 230 when nothing is stored, is [incomplete]; a
    last position at or above it succeeds, and the entry is removed. *)
Theorem completion_threshold challenges now data ts cid points times xs :
  passes_envelope now data ts ->
  dict_get data "challenge_id" JNull = JStr cid ->
  dict_get data "points" (JList []) = JList points ->
  points <> [] ->
  parse_points points = Some (times, xs) ->
  strictly_increasing times ->
  60 <= List.last times 0 - List.hd 0 times <= 10000 ->
  (List.last xs 0 < threshold (challenges !! cid) ->
     api_verify challenges now (Some (JDict data)) = (Failure incomplete, challenges))
  /\ (threshold (challenges !! cid) <= List.last xs 0 ->
        api_verify challenges now (Some (JDict data))
        = (Success (final_token (JStr cid)), delete cid challenges)).
Proof.
  intros Henv Hid Hpoints Hne Hparse Hinc Htotal.
  rewrite (envelope_then_trace _ _ _ _ _ _ _ Henv Hpoints Hne Hparse).
  apply increasing_spec in Hinc. rewrite Hinc, Hid. cbn [negb]. cbv zeta.
  destruct (Z.ltb_spec (List.last times 0 - List.hd 0 times) 60); [lia|].
  destruct (Z.gtb_spec (List.last times 0 - List.hd 0 times) 10000); [lia|].
  cbn [challenges_get challenges_pop].
  destruct (Z.ltb_spec (List.last xs 0) (threshold (challenges !! cid)));
    split; intros; try lia; reflexivity.
Qed.

(** C6. On a request that reaches the trace checks with a trace that
    parses: a sample whose time is not above the one before it (an equal
    time included) makes the answer [bad_timing]; strictly increasing
    times never do. *)
Theorem monotonic_timing challenges now data ts points times xs :
  passes_envelope now data ts ->
  dict_get data "points" (JList []) = JList points ->
  points <> [] ->
  parse_points points = Some (times, xs) ->
  (forall i a b, times !! i = Some a -> times !! S i = Some b -> b <= a ->
     api_verify challenges now (Some (JDict data)) = (Failure bad_timing, challenges))
  /\ (strictly_increasing times ->
        (api_verify challenges now (Some (JDict data))).1 <> Failure bad_timing).
Proof.
  intros Henv Hpoints Hne Hparse.
  rewrite (envelope_then_trace _ _ _ _ _ _ _ Henv Hpoints Hne Hparse). split.
  - intros i a b Ha Hb Hle. now rewrite (not_increasing _ _ _ _ Ha Hb Hle).
  - intros Hinc. apply increasing_spec in Hinc. rewrite Hinc. cbn [negb].
    cbv zeta. repeat case_match; discriminate.
Qed.

(** C7. A request with a string id that gets through the parameter,
    expiry, signature and proof checks and has no [points], or an empty
    list, succeeds with the token and the entry is removed; and whatever
    else such a request contains, its answer is never one of the trace
    rejections. *)
Theorem no_points_path challenges now data :
  dict_item data "points" = None \/ dict_item data "points" = Some (JList []) ->
  (forall ts cid,
      passes_envelope now data ts ->
      dict_get data "challenge_id" JNull = JStr cid ->
      api_verify challenges now (Some (JDict data))
      = (Success (final_token (JStr cid)), delete cid challenges))
  /\ (forall e,
        (api_verify challenges now (Some (JDict data))).1 = Failure e ->
        from_trace e = false).
Proof.
  intros Hnone.
  assert (Hpoints : dict_get data "points" (JList []) = JList []).
  { unfold dict_get. now destruct Hnone as [-> | ->]. }
  split.
  - intros ts cid Henv Hid.
    rewrite (envelope_then_success _ _ _ _ Henv), Hid; [reflexivity|].
    intros p points. rewrite Hpoints. discriminate.
  - intros e He. destruct (from_trace e) eqn:Etrace; [|reflexivity].
    destruct (trace_error_needs_points _ _ _ _ He Etrace) as (p & points & Hp).
    congruence.
Qed.

(** C8. A call that ends in a rejection, whichever it is, returns the
    store it was given. A call that returns another store succeeded; and a
    call that succeeds returns what [pop] leaves of the store. *)
Theorem failure_keeps_store challenges now body :
  (forall e,
      (api_verify challenges now body).1 = Failure e ->
      (api_verify challenges now body).2 = challenges)
  /\ ((api_verify challenges now body).2 <> challenges ->
        exists token, (api_verify challenges now body).1 = Success token)
  /\ (forall token,
        (api_verify challenges now body).1 = Success token ->
        exists data,
          body = Some (JDict data)
          /\ challenges_pop challenges (dict_get data "challenge_id" JNull)
             = Some (api_verify challenges now body).2).
Proof.
  destruct (api_verify_store challenges now body)
    as [[Hfail Hsame] | (data & Hbody & Hpop & Hok)].
  - split_and!; [congruence | congruence |].
    intros token Hok. now destruct (Hfail token).
  - split_and!; [rewrite Hok; discriminate | eauto | eauto].
Qed.

(** C9. The signature just made verifies, and a differing signature never
    verifies. For a differing signature made of ASCII characters the answer
    is [False], as the specification asks. For one that holds a character
    outside ASCII there is no answer: [hmac.compare_digest] raises
    [TypeError], and the function announced as [-> bool] raises with it. *)
Theorem signature_integrity id ts :
  verify_signature id ts (JStr (sign_challenge id ts)) = Some true
  /\ (forall sig, sig <> JStr (sign_challenge id ts) ->
        verify_signature id ts sig <> Some true)
  /\ (forall s, s <> sign_challenge id ts ->
        verify_signature id ts (JStr s) = if is_ascii s then Some false else None).
Proof.
  split; [now apply verify_signature_true|]. split.
  - intros sig Hsig Htrue. now apply verify_signature_true in Htrue.
  - intros s Hs. unfold verify_signature, compare_digest; cbv zeta.
    rewrite sign_challenge_ascii. cbn [andb].
    destruct (is_ascii s); [|reflexivity].
    f_equal. apply String.eqb_neq. congruence.
Qed.

(** C10. When [points] is there but is not a list, no trace check runs:
    the answer is never one of the trace rejections, [malformed_points]
    included, and a request with a string id that gets through the
    parameter, expiry, signature and proof checks succeeds. *)
Theorem non_list_points_skipped challenges now data v :
  dict_item data "points" = Some v ->
  (forall items, v <> JList items) ->
  (forall e,
      (api_verify challenges now (Some (JDict data))).1 = Failure e ->
      from_trace e = false)
  /\ (forall ts cid,
        passes_envelope now data ts ->
        dict_get data "challenge_id" JNull = JStr cid ->
        api_verify challenges now (Some (JDict data))
        = (Success (final_token (JStr cid)), delete cid challenges)).
Proof.
  intros Hv Hnolist.
  assert (Hpoints : dict_get data "points" (JList []) = v).
  { unfold dict_get. now rewrite Hv. }
  split.
  - intros e He. destruct (from_trace e) eqn:Etrace; [|reflexivity].
    destruct (trace_error_needs_points _ _ _ _ He Etrace) as (p & points & Hp).
    destruct (Hnolist (p :: points)). congruence.
  - intros ts cid Henv Hid.
    rewrite (envelope_then_success _ _ _ _ Henv), Hid; [reflexivity|].
    intros p points. rewrite Hpoints. apply Hnolist.
Qed.

(** ** Further properties of the signer and of [api_create] *)

Lemma compress_length h block :
  length h = 8%nat -> length (SHA256.compress h block) = 8%nat.
Proof.
  intros Hh. unfold SHA256.compress; cbv zeta.
  rewrite length_map, length_combine, Hh. reflexivity.
Qed.

Lemma digest_length msg : length (SHA256.digest msg) = 32%nat.
Proof.
  unfold SHA256.digest; cbv zeta.
  generalize (SHA256.blocks (length (SHA256.words (length msg + 72) (SHA256.pad msg)))
                (SHA256.words (length msg + 72) (SHA256.pad msg))).
  intros blocks.
  assert (Hstate : forall h, length h = 8%nat ->
            length (fold_left SHA256.compress blocks h) = 8%nat).
  { induction blocks as [|b blocks IH]; intros h Hh; [exact Hh|].
    cbn [fold_left]. apply IH, compress_length, Hh. }
  specialize (Hstate SHA256.H0 eq_refl).
  destruct (fold_left SHA256.compress blocks SHA256.H0)
    as [|w0 [|w1 [|w2 [|w3 [|w4 [|w5 [|w6 [|w7 [|w8 ws]]]]]]]]]; try discriminate.
  reflexivity.
Qed.

Lemma hex_digit_hex n : 0 <= n < 16 -> is_hex_digit (hex_digit n) = true.
Proof.
  intros Hn. unfold is_hex_digit, hex_digit; cbv zeta.
  rewrite N_ascii_embedding by (destruct (n <? 10); lia).
  destruct (Z.ltb_spec n 10); rewrite Z2N.id by lia.
  - apply orb_true_iff. left. apply andb_true_iff. split; apply Z.leb_le; lia.
  - apply orb_true_iff. right. apply andb_true_iff. split; apply Z.leb_le; lia.
Qed.

Lemma hexdigest_shape bs :
  Forall (fun b => 0 <= b < 256) bs ->
  String.length (hexdigest bs) = (2 * length bs)%nat /\ lower_hex (hexdigest bs) = true.
Proof.
  unfold lower_hex. induction 1 as [|b bs Hb _ [IHlen IHhex]]; [split; reflexivity|].
  cbn [hexdigest String.length list_ascii_of_string forallb length]. split.
  - rewrite IHlen. lia.
  - rewrite !hex_digit_hex, IHhex; [reflexivity| |].
    + apply Z.mod_pos_bound. lia.
    + split; [apply Z.div_pos; lia | apply Z.div_lt_upper_bound; lia].
Qed.

Lemma hmac_hexdigest_shape key msg :
  String.length (hexdigest (hmac_sha256 key msg)) = 64%nat
  /\ lower_hex (hexdigest (hmac_sha256 key msg)) = true.
Proof.
  destruct (hexdigest_shape _ (hmac_bytes key msg)) as [Hlen Hhex].
  split; [|exact Hhex]. rewrite Hlen. unfold hmac_sha256; cbv zeta.
  now rewrite digest_length.
Qed.

Lemma sign_challenge_truthy id ts : truthy (JStr (sign_challenge id ts)) = true.
Proof.
  pose proof (proj1 (hmac_hexdigest_shape SECRET_KEY
    (bytes_of_string (py_str id +:+ "|" +:+ decimal ts)))) as Hlen.
  unfold sign_challenge; cbv zeta.
  destruct (hexdigest _); [discriminate | reflexivity].
Qed.

(** X1. Whatever the id and the time, the signature of a challenge and the
    token of a success are 64 lower-case hexadecimal digits. *)
Theorem digest_format id ts :
  String.length (sign_challenge id ts) = 64%nat
  /\ lower_hex (sign_challenge id ts) = true
  /\ String.length (final_token id) = 64%nat
  /\ lower_hex (final_token id) = true.
Proof.
  unfold sign_challenge, final_token; cbv zeta.
  split_and!; apply hmac_hexdigest_shape.
Qed.

(** X2. [api_create] binds the id it was given and nothing else: the entry
    of the id holds the time of issue and a [min_drag] of 230, whatever was
    stored for that id before; every other id keeps what it had; and the
    answer carries the id, that time, a signature [verify_signature] accepts
    and an [expires_in] of 120. *)
Theorem api_create_registers challenges cid now rand :
  (api_create challenges cid now rand).2 !! cid = Some (Meta now 230 (b64encode rand))
  /\ (forall k, k <> cid ->
        (api_create challenges cid now rand).2 !! k = challenges !! k)
  /\ challenge_id (api_create challenges cid now rand).1 = cid
  /\ timestamp (api_create challenges cid now rand).1 = now
  /\ expires_in (api_create challenges cid now rand).1 = 120
  /\ verify_signature (JStr cid) now
       (JStr (signature (api_create challenges cid now rand).1)) = Some true.
Proof.
  unfold api_create; cbv zeta; cbn [fst snd challenge_id timestamp expires_in signature].
  split_and!; try reflexivity.
  - apply lookup_insert_eq.
  - intros k Hk. now apply lookup_insert_ne.
  - now apply verify_signature_true.
Qed.

(** ** From [api_create] to [api_verify] through the page *)

Lemma parse_points_samples trace :
  parse_points (map point trace) = Some (map fst trace, map snd trace)
  /\ parse_points (map pair trace) = Some (map fst trace, map snd trace).
Proof.
  unfold parse_points.
  assert (Hfield : forall key index (proj : Z * Z -> Z) (shape : Z * Z -> json),
            (forall p, sample_field key index (shape p) = Some (proj p)) ->
            mapM (sample_field key index) (map shape trace) = Some (map proj trace)).
  { intros key index proj shape Hshape. apply mapM_Some.
    induction trace as [|p trace IH]; constructor; [apply Hshape | exact IH]. }
  split.
  - rewrite (Hfield "t" 0%nat fst point), (Hfield "x" 1%nat snd point);
      [reflexivity | intros [t x]; reflexivity | intros [t x]; reflexivity].
  - rewrite (Hfield "t" 0%nat fst pair), (Hfield "x" 1%nat snd pair);
      [reflexivity | intros [t x]; reflexivity | intros [t x]; reflexivity].
Qed.

Lemma page_payload_envelope challenges cid now rand now' trace :
  cid <> "" -> now <> 0 -> now' - now <= 120 ->
  passes_envelope now' (page_payload (api_create challenges cid now rand).1 trace) now.
Proof.
  intros Hcid Hnow Hfresh. unfold passes_envelope; cbv zeta.
  change (dict_get (page_payload (api_create challenges cid now rand).1 trace)
            "challenge_id" JNull) with (JStr cid).
  change (dict_get (page_payload (api_create challenges cid now rand).1 trace)
            "timestamp" JNull) with (JInt now).
  change (dict_get (page_payload (api_create challenges cid now rand).1 trace)
            "signature" JNull) with (JStr (sign_challenge (JStr cid) now)).
  change (dict_get (page_payload (api_create challenges cid now rand).1 trace)
            "proof" (JStr "")) with (JStr (btoa ("swiped-" +:+ cid))).
  split_and!.
  - rewrite sign_challenge_truthy. cbn [truthy].
    destruct cid; [congruence|]. destruct (Z.eqb_spec now 0); [congruence | reflexivity].
  - reflexivity.
  - exact Hfresh.
  - now apply verify_signature_true.
  - unfold differs, expected_proof, btoa. cbn [py_str]. now rewrite String.eqb_refl.
Qed.

Lemma issue_then_verify_success challenges cid now rand now' trace :
  cid <> "" -> now <> 0 -> now' - now <= 120 ->
  strictly_increasing (map fst trace) ->
  60 <= List.last (map fst trace) 0 - List.hd 0 (map fst trace) <= 10000 ->
  230 <= List.last (map snd trace) 0 ->
  api_verify (api_create challenges cid now rand).2 now'
    (Some (JDict (page_payload (api_create challenges cid now rand).1 trace)))
  = (Success (final_token (JStr cid)), delete cid challenges).
Proof.
  intros Hcid Hnow Hfresh Hinc Htotal Hx.
  pose proof (page_payload_envelope challenges cid now rand now' trace Hcid Hnow Hfresh)
    as Henv.
  assert (Hne : map point trace <> []).
  { destruct trace; [cbn in Htotal; lia | discriminate]. }
  rewrite (envelope_then_trace _ _ _ _ _ _ _ Henv eq_refl Hne
             (proj1 (parse_points_samples trace))).
  apply increasing_spec in Hinc. rewrite Hinc. cbn [negb]. cbv zeta.
  destruct (Z.ltb_spec (List.last (map fst trace) 0 - List.hd 0 (map fst trace)) 60);
    [lia|].
  destruct (Z.gtb_spec (List.last (map fst trace) 0 - List.hd 0 (map fst trace)) 10000);
    [lia|].
  change (dict_get (page_payload (api_create challenges cid now rand).1 trace)
            "challenge_id" JNull) with (JStr cid).
  unfold api_create; cbv zeta; cbn [snd challenges_get challenges_pop].
  rewrite lookup_insert_eq, delete_insert_eq. cbn [threshold min_drag].
  destruct (Z.ltb_spec (List.last (map snd trace) 0) 230); [lia | reflexivity].
Qed.

(** X3. The whole exchange. A challenge made by [api_create] (with an id
    that is not empty and at a time that is not 0) and posted back by the
    page with the recorded swipe is accepted by [api_verify] when at most
    [expires_in] seconds have passed, the times of the swipe increase
    strictly and span 60 to 10000 ms, and the last position is at least 230:
    the answer is the token of the id and the entry is gone. After more than
    [expires_in] seconds the same request is [expired] and the entry stays. *)
Theorem issue_then_verify challenges cid now rand now' trace :
  cid <> "" -> is_ascii cid = true -> now <> 0 ->
  let issued := api_create challenges cid now rand in
  let request := Some (JDict (page_payload issued.1 trace)) in
  (now' - now <= expires_in issued.1 ->
   strictly_increasing (map fst trace) ->
   60 <= List.last (map fst trace) 0 - List.hd 0 (map fst trace) <= 10000 ->
   230 <= List.last (map snd trace) 0 ->
   api_verify issued.2 now' request
   = (Success (final_token (JStr cid)), delete cid challenges))
  /\ (expires_in issued.1 < now' - now ->
      api_verify issued.2 now' request = (Failure expired, issued.2)).
Proof.
  intros Hcid _ Hnow issued request. split.
  - apply issue_then_verify_success; assumption.
  - change (expires_in issued.1) with 120. intros Hlate.
    destruct (page_payload_envelope challenges cid now rand now trace Hcid Hnow
                ltac:(lia)) as (Hpresent & Hts & _).
    unfold request, api_verify; cbv zeta. fold issued in Hpresent, Hts.
    rewrite Hpresent, Hts. cbn [negb].
    destruct (Z.gtb_spec (now' - now) 120); [reflexivity | lia].
Qed.

(** X4. Issuing a challenge under an id the store does not hold and then
    verifying it with an accepted swipe gives back the store as it was before
    the challenge was issued. *)
Theorem issue_then_verify_restores challenges cid now rand now' trace :
  challenges !! cid = None ->
  cid <> "" -> is_ascii cid = true -> now <> 0 -> now' - now <= 120 ->
  strictly_increasing (map fst trace) ->
  60 <= List.last (map fst trace) 0 - List.hd 0 (map fst trace) <= 10000 ->
  230 <= List.last (map snd trace) 0 ->
  (api_verify (api_create challenges cid now rand).2 now'
     (Some (JDict (page_payload (api_create challenges cid now rand).1 trace)))).2
  = challenges.
Proof.
  intros Hnew Hcid _ Hnow Hfresh Hinc Htotal Hx.
  rewrite issue_then_verify_success by assumption.
  cbn [snd]. now apply delete_id.
Qed.

(** ** What a call depends on, and what it touches *)

(** X5. A call adds nothing to the store and leaves every entry alone
    except, at most, the one filed under the [challenge_id] of the request. *)
Theorem verify_touches_only_its_id challenges now body :
  (api_verify challenges now body).2 ⊆ challenges
  /\ (forall k,
        (api_verify challenges now body).2 !! k <> challenges !! k ->
        exists data,
          body = Some (JDict data) /\ dict_get data "challenge_id" JNull = JStr k).
Proof.
  destruct (api_verify_store challenges now body)
    as [[_ ->] | (data & -> & Hpop & _)]; [split; [reflexivity | congruence]|].
  revert Hpop. generalize (api_verify challenges now (Some (JDict data))).2.
  intros left Hpop.
  destruct (dict_get data "challenge_id" JNull) as [| | | |k0| |] eqn:Hid;
    cbn [challenges_pop] in Hpop; try case_decide; try discriminate;
    injection Hpop as <-; try (split; [reflexivity | congruence]).
  split; [apply delete_subseteq|].
  intros k Hk. exists data. split; [reflexivity|].
  destruct (decide (k0 = k)) as [->|Hne]; [exact Hid|].
  now rewrite lookup_delete_ne in Hk.
Qed.

(** X6. The token of a success is a function of the [challenge_id] alone:
    two calls that succeed on requests with the same id answer the same
    token, whatever the times, the stores and the rest of the requests. *)
Theorem token_depends_only_on_id
        challenges1 now1 data1 token1 left1 challenges2 now2 data2 token2 left2 :
  api_verify challenges1 now1 (Some (JDict data1)) = (Success token1, left1) ->
  api_verify challenges2 now2 (Some (JDict data2)) = (Success token2, left2) ->
  dict_get data1 "challenge_id" JNull = dict_get data2 "challenge_id" JNull ->
  token1 = token2.
Proof.
  intros H1 H2 Hid.
  apply success_inv in H1 as (_ & _ & _ & -> & _).
  apply success_inv in H2 as (_ & _ & _ & -> & _).
  now rewrite Hid.
Qed.

(** X7. The time of the call matters to the expiry test and to nothing
    else: two calls on the same store and body, neither of which answers
    [expired], answer the same and leave the same store. *)
Theorem time_matters_only_for_expiry challenges now now' body :
  (api_verify challenges now body).1 <> Failure expired ->
  (api_verify challenges now' body).1 <> Failure expired ->
  api_verify challenges now body = api_verify challenges now' body.
Proof.
  unfold api_verify; cbv zeta.
  destruct body as [[| | | | | |data]|]; try reflexivity.
  destruct (negb _); [reflexivity|].
  destruct (py_int _) as [ts|]; [|reflexivity].
  destruct (now - ts >? 120), (now' - ts >? 120); cbn [fst]; congruence.
Qed.

(** X8. No answer is decided by the store. When every stored challenge
    asks for a drag of 230, which is all [api_create] ever stores, a request
    whose id is a string gets the answer it would get on an empty store. *)
Theorem store_never_decides challenges now data cid :
  (forall k m, challenges !! k = Some m -> min_drag m = 230) ->
  dict_get data "challenge_id" JNull = JStr cid ->
  (api_verify challenges now (Some (JDict data))).1
  = (api_verify ∅ now (Some (JDict data))).1.
Proof.
  intros Hstore Hid. unfold api_verify; cbv zeta.
  rewrite Hid. cbn [challenges_get challenges_pop]. rewrite lookup_empty.
  assert (Hthr : match challenges !! cid with Some m => min_drag m | None => 230 end
                 = 230).
  { destruct (challenges !! cid) as [m|] eqn:E; [exact (Hstore _ _ E) | reflexivity]. }
  rewrite Hthr. repeat case_match; reflexivity.
Qed.

(** ** The rejections the handler answers before it reads the trace *)

Lemma verify_signature_false id ts sig :
  verify_signature id ts sig = Some false
  <-> exists s, sig = JStr s /\ is_ascii s = true /\ s <> sign_challenge id ts.
Proof.
  unfold verify_signature, compare_digest; cbv zeta.
  rewrite sign_challenge_ascii. cbn [andb]. split.
  - destruct sig as [| | | |s| |]; try discriminate.
    destruct (is_ascii s) eqn:Hascii; [|discriminate]. intros E.
    assert (E' : String.eqb (sign_challenge id ts) s = false) by congruence.
    apply String.eqb_neq in E'. exists s. split_and!; congruence.
  - intros (s & -> & -> & Hs). f_equal. apply String.eqb_neq. congruence.
Qed.

Lemma expected_proof_not_empty id : expected_proof id <> "".
Proof. unfold expected_proof. cbn. discriminate. Qed.

(** X9. The answer is [bad_request] exactly when the body could not be read
    as JSON. A body that is JSON but not an object is not rejected: the
    handler raises on it, whatever the store and the time. *)
Theorem bad_request_iff challenges now body :
  ((api_verify challenges now body).1 = Failure bad_request <-> body = None)
  /\ (forall v, body = Some v -> (forall data, v <> JDict data) ->
        api_verify challenges now body = (Raised, challenges)).
Proof.
  split; [split|].
  - unfold api_verify; cbv zeta.
    repeat case_match; simplify_eq; cbn [fst]; try discriminate; reflexivity.
  - now intros ->.
  - intros v -> Hv. destruct v; try reflexivity. now destruct (Hv entries).
Qed.

(** X10. The answer is [bad_timestamp] exactly when the three parameters are
    there and [int(timestamp)] raises. *)
Theorem bad_timestamp_iff challenges now body :
  (api_verify challenges now body).1 = Failure bad_timestamp
  <-> exists data,
        body = Some (JDict data)
        /\ truthy (dict_get data "challenge_id" JNull)
             && truthy (dict_get data "timestamp" JNull)
             && truthy (dict_get data "signature" JNull) = true
        /\ py_int (dict_get data "timestamp" JNull) = None.
Proof.
  split.
  - unfold api_verify; cbv zeta.
    repeat case_match; simplify_eq; cbn [fst]; try discriminate; bool_facts; eauto.
  - intros (data & -> & Hpresent & Hts). unfold api_verify; cbv zeta.
    now rewrite Hpresent, Hts.
Qed.

(** X11. The answer is [invalid_signature] exactly when the parameters are
    there, the timestamp reads as a time not more than 120 seconds old, and
    the signature is a string of ASCII characters other than the one
    [sign_challenge] makes for the id and that time. Neither [proof] nor
    [points] is looked at. *)
Theorem invalid_signature_iff challenges now body :
  (api_verify challenges now body).1 = Failure invalid_signature
  <-> exists data ts s,
        body = Some (JDict data)
        /\ truthy (dict_get data "challenge_id" JNull)
             && truthy (dict_get data "timestamp" JNull)
             && truthy (dict_get data "signature" JNull) = true
        /\ py_int (dict_get data "timestamp" JNull) = Some ts
        /\ now - ts <= 120
        /\ dict_get data "signature" JNull = JStr s
        /\ is_ascii s = true
        /\ s <> sign_challenge (dict_get data "challenge_id" JNull) ts.
Proof.
  split.
  - unfold api_verify; cbv zeta.
    repeat case_match; simplify_eq; cbn [fst]; try discriminate; bool_facts; intros _.
    match goal with
    | Hv : verify_signature _ _ _ = Some false |- _ =>
        apply verify_signature_false in Hv as (s & Hs & Hascii & Hne)
    end.
    eexists _, _, s. split_and!; eauto.
  - intros (data & ts & s & -> & Hpresent & Hts & Hfresh & Hs & Hascii & Hne).
    unfold api_verify; cbv zeta. rewrite Hpresent, Hts. cbn [negb].
    destruct (Z.gtb_spec (now - ts) 120); [lia|].
    rewrite (proj2 (verify_signature_false _ ts _)); [reflexivity|].
    exists s. now rewrite Hs.
Qed.

(** X12. The proof cannot be left out: a request that gets through the
    signature check without a [proof], or with a [proof] that is anything but
    the string [base64("swiped-" + id)], is answered [invalid_proof], with or
    without [points]. *)
Theorem proof_is_mandatory challenges now data ts :
  truthy (dict_get data "challenge_id" JNull)
    && truthy (dict_get data "timestamp" JNull)
    && truthy (dict_get data "signature" JNull) = true ->
  py_int (dict_get data "timestamp" JNull) = Some ts ->
  now - ts <= 120 ->
  verify_signature (dict_get data "challenge_id" JNull) ts
    (dict_get data "signature" JNull) = Some true ->
  dict_item data "proof" = None
  \/ (exists v, dict_item data "proof" = Some v
                /\ v <> JStr (expected_proof (dict_get data "challenge_id" JNull))) ->
  api_verify challenges now (Some (JDict data)) = (Failure invalid_proof, challenges).
Proof.
  intros Hpresent Hts Hfresh Hsig Hproof.
  assert (Hdiff : differs (dict_get data "proof" (JStr ""))
                    (expected_proof (dict_get data "challenge_id" JNull)) = true).
  { unfold dict_get at 1. destruct Hproof as [-> | (v & -> & Hv)].
    - cbn [differs]. apply negb_true_iff, String.eqb_neq.
      intros E. symmetry in E. now apply expected_proof_not_empty in E.
    - destruct v; try reflexivity. cbn [differs].
      apply negb_true_iff, String.eqb_neq. congruence. }
  unfold api_verify; cbv zeta. rewrite Hpresent, Hts. cbn [negb].
  destruct (Z.gtb_spec (now - ts) 120); [lia|].
  now rewrite Hsig, Hdiff.
Qed.


(** ** Reading the trace *)

Lemma parse_points_lengths points times xs :
  parse_points points = Some (times, xs) ->
  length times = length points /\ length xs = length points.
Proof.
  unfold parse_points. intros Hparse.
  destruct (mapM (sample_field "t" 0) points) as [ts|] eqn:Et; [|discriminate].
  destruct (mapM (sample_field "x" 1) points) as [ps|] eqn:Ex; [|discriminate].
  cbn in Hparse. injection Hparse as <- <-.
  apply length_mapM in Et, Ex. now split.
Qed.

Lemma parse_points_unreadable points p :
  In p points ->
  sample_field "t" 0 p = None \/ sample_field "x" 1 p = None ->
  parse_points points = None.
Proof.
  intros Hin Hp. apply list_elem_of_In in Hin. unfold parse_points.
  destruct Hp as [Hp | Hp].
  - assert (Ht : mapM (sample_field "t" 0) points = None).
    { apply mapM_None_2, Exists_exists. eauto. }
    now rewrite Ht.
  - assert (Hx : mapM (sample_field "x" 1) points = None).
    { apply mapM_None_2, Exists_exists. eauto. }
    rewrite Hx. now destruct (mapM (sample_field "t" 0) points).
Qed.

(** X14. A sample may be sent as an object [{t, x}] or as a pair [[t, x]],
    and the two forms may be mixed in one trace: the times and the positions
    read from it are those of the samples, in order. *)
Theorem mixed_samples_parse points trace :
  Forall2 (fun p sample => p = point sample \/ p = pair sample) points trace ->
  parse_points points = Some (map fst trace, map snd trace).
Proof.
  intros Hshape. unfold parse_points.
  assert (Hfield : forall key index (proj : Z * Z -> Z),
            (forall sample, sample_field key index (point sample) = Some (proj sample)) ->
            (forall sample, sample_field key index (pair sample) = Some (proj sample)) ->
            mapM (sample_field key index) points = Some (map proj trace)).
  { intros key index proj Hpoint Hpair. apply mapM_Some.
    induction Hshape as [|p sample points trace [-> | ->] _ IH];
      cbn [map]; constructor; auto. }
  rewrite (Hfield "t" 0%nat fst), (Hfield "x" 1%nat snd);
    [reflexivity | | | |]; intros [t x]; reflexivity.
Qed.

(** X15. One sample that cannot be read spoils the trace: when a request
    gets through to the trace checks and some element of [points] is [null],
    a boolean, a number, a list of fewer than two elements or an object
    without ["t"] or without ["x"], the answer is [malformed_points],
    whatever the other samples are. *)
Theorem malformed_sample challenges now data ts points p :
  passes_envelope now data ts ->
  dict_get data "points" (JList []) = JList points ->
  In p points ->
  p = JNull \/ (exists b, p = JBool b) \/ (exists n, p = JInt n)
  \/ (exists x, p = JFloat x) \/ p = JList [] \/ (exists v, p = JList [v])
  \/ (exists d, p = JDict d /\ (dict_item d "t" = None \/ dict_item d "x" = None)) ->
  api_verify challenges now (Some (JDict data)) = (Failure malformed_points, challenges).
Proof.
  intros Henv Hpoints Hin Hp.
  assert (Hparse : parse_points points = None).
  { apply (parse_points_unreadable points p Hin).
    destruct Hp as [->|[[b ->]|[[n ->]|[[x ->]|[->|[[v ->]|(d & -> & [Hd | Hd])]]]]]];
      cbn [sample_field py_item nth_error]; try rewrite Hd; auto. }
  enter_envelope Henv. rewrite Hpoints.
  destruct points as [|q points]; [destruct Hin|]. now rewrite Hparse.
Qed.

(** X16. A trace of a single sample is never accepted: on a request that
    gets through to the trace checks it is [too_fast] when the sample can be
    read and [malformed_points] when it cannot. *)
Theorem single_sample_rejected challenges now data ts p :
  passes_envelope now data ts ->
  dict_get data "points" (JList []) = JList [p] ->
  api_verify challenges now (Some (JDict data))
  = (Failure match parse_points [p] with
             | Some _ => too_fast
             | None => malformed_points
             end,
     challenges).
Proof.
  intros Henv Hpoints. enter_envelope Henv. rewrite Hpoints.
  destruct (parse_points [p]) as [[times xs]|] eqn:Hparse; [|reflexivity].
  destruct (parse_points_lengths _ _ _ Hparse) as [Hlen _].
  destruct times as [|t [|t' times]]; try discriminate.
  cbn [increasing negb List.last List.hd]. cbv zeta. now rewrite Z.sub_diag.
Qed.

(** X17. Of the positions only the last one is looked at. Two requests
    that get through to the trace checks under the same id, with traces that
    read as the same times and as positions with the same last element, get
    the same answer and leave the same store; how the positions run before
    the last one changes nothing. *)
Theorem only_last_position_counts
        challenges now data data' ts ts' points points' times xs xs' :
  passes_envelope now data ts ->
  passes_envelope now data' ts' ->
  dict_get data "challenge_id" JNull = dict_get data' "challenge_id" JNull ->
  dict_get data "points" (JList []) = JList points ->
  dict_get data' "points" (JList []) = JList points' ->
  points <> [] ->
  parse_points points = Some (times, xs) ->
  parse_points points' = Some (times, xs') ->
  List.last xs 0 = List.last xs' 0 ->
  api_verify challenges now (Some (JDict data))
  = api_verify challenges now (Some (JDict data')).
Proof.
  intros Henv Henv' Hid Hpoints Hpoints' Hne Hparse Hparse' Hlast.
  assert (Hne' : points' <> []).
  { destruct (parse_points_lengths _ _ _ Hparse) as [Hl _].
    destruct (parse_points_lengths _ _ _ Hparse') as [Hl' _].
    destruct points, points'; try congruence; rewrite Hl' in Hl; discriminate. }
  rewrite (envelope_then_trace _ _ _ _ _ _ _ Henv Hpoints Hne Hparse).
  rewrite (envelope_then_trace _ _ _ _ _ _ _ Henv' Hpoints' Hne' Hparse').
  now rewrite Hid, Hlast.
Qed.

End Verify.

(** ** The handlers on the sample requests *)

Section Runs.
#[local] Existing Instance plain_runtime.
Import Sample.

(** The trace of the end-to-end scenario, [[{t:0,x:0},{t:100,x:250}]]. *)
Let swipe : json := JList [sample 0 0; sample 100 250].

Lemma sample_store_created k m : store !! k = Some m -> min_drag m = 230.
Proof.
  apply (api_create_min_drag ∅). intros k' m'. rewrite lookup_empty. discriminate.
Qed.

Lemma sample_envelope now points :
  now - issued <= 120 -> passes_envelope now (with_points points) issued.
Proof. intros Hnow. unfold passes_envelope; cbv zeta.
  split_and!; [| | exact Hnow | |]; vm_compute; reflexivity. Qed.

Lemma envelope_at_issue points : passes_envelope issued (with_points points) issued.
Proof. apply sample_envelope. lia. Qed.

Lemma sample_envelope_bare now :
  now - issued <= 120 -> passes_envelope now envelope issued.
Proof. intros Hnow. unfold passes_envelope; cbv zeta.
  split_and!; [| | exact Hnow | |]; vm_compute; reflexivity. Qed.

(** C1: the scenario of the specification. The first call succeeds and
    empties the store; the same request, 55 seconds later, succeeds again. *)
Lemma replay_accepted_witness :
  api_verify store (issued + 5) (Some (JDict (with_points swipe))) = (Success token, ∅)
  /\ api_verify ∅ (issued + 60) (Some (JDict (with_points swipe))) = (Success token, ∅).
Proof.
  assert (Hfirst : api_verify store (issued + 5) (Some (JDict (with_points swipe)))
                   = (Success token, ∅)) by (vm_compute; reflexivity).
  split; [exact Hfirst|].
  apply (replay_accepted store (issued + 5) (issued + 60) (with_points swipe) issued).
  - exact sample_store_created.
  - exact Hfirst.
  - vm_compute; reflexivity.
  - lia.
Defined.

(** C2: 120 seconds after it was issued, exactly, the challenge is still
    accepted. *)
Lemma expiry_at_120_accepted :
  (issued + 120) - issued = 120
  /\ api_verify store (issued + 120) (Some (JDict (with_points swipe)))
     = (Success token, ∅).
Proof. split; [lia | vm_compute; reflexivity]. Qed.

Lemma expiry_boundary_witness :
  api_verify store (issued + 121) (Some (JDict envelope)) = (Failure expired, store)
  /\ (api_verify store (issued + 120) (Some (JDict envelope))).1 <> Failure expired
  /\ (api_verify store (issued + 119) (Some (JDict envelope))).1 <> Failure expired.
Proof.
  assert (Hpresent :
    truthy (dict_get envelope "challenge_id" JNull)
      && truthy (dict_get envelope "timestamp" JNull)
      && truthy (dict_get envelope "signature" JNull) = true)
    by (vm_compute; reflexivity).
  assert (Hts : py_int (dict_get envelope "timestamp" JNull) = Some issued)
    by (vm_compute; reflexivity).
  split_and!.
  - apply (expiry_boundary store (issued + 121) envelope issued Hpresent Hts). lia.
  - apply (expiry_boundary store (issued + 120) envelope issued Hpresent Hts). lia.
  - apply (expiry_boundary store (issued + 119) envelope issued Hpresent Hts). lia.
Defined.

(** C3: all three parameters are there and none is empty, but the
    timestamp is the integer 0; at a time when that is not even expired, the
    answer is [missing_params]. *)
Lemma timestamp_zero_missing :
  api_verify ∅ 100
    (Some (JDict [("challenge_id", JStr "c"); ("timestamp", JInt 0);
                  ("signature", JStr "s")]))
  = (Failure missing_params, ∅).
Proof. vm_compute. reflexivity. Qed.

Lemma missing_params_iff_witness :
  (api_verify ∅ 100 (Some (JDict [("challenge_id", JStr "c"); ("signature", JStr "s")]))).1
  = Failure missing_params.
Proof.
  apply (missing_params_iff ∅ 100). eexists. split; [reflexivity|].
  vm_compute. reflexivity.
Defined.

(** C4: 59 ms is too fast, 10001 ms too slow, 60 ms neither. *)
Lemma timing_window_witness :
  api_verify store issued (Some (JDict (with_points (JList [sample 0 0; sample 59 250]))))
  = (Failure too_fast, store)
  /\ api_verify store issued
       (Some (JDict (with_points (JList [sample 0 0; sample 10001 250]))))
     = (Failure too_slow, store)
  /\ (api_verify store issued
        (Some (JDict (with_points (JList [sample 0 0; sample 60 250]))))).1
     <> Failure too_fast.
Proof.
  split_and!.
  - apply (timing_window store issued _ issued [sample 0 0; sample 59 250] [0; 59] [0; 250]
             (envelope_at_issue _) eq_refl ltac:(discriminate) eq_refl).
    + apply increasing_spec. reflexivity.
    + simpl. lia.
  - apply (timing_window store issued _ issued [sample 0 0; sample 10001 250]
             [0; 10001] [0; 250]
             (envelope_at_issue _) eq_refl ltac:(discriminate) eq_refl).
    + apply increasing_spec. reflexivity.
    + simpl. lia.
  - apply (timing_window store issued _ issued [sample 0 0; sample 60 250] [0; 60] [0; 250]
             (envelope_at_issue _) eq_refl ltac:(discriminate) eq_refl).
    + apply increasing_spec. reflexivity.
    + simpl. lia.
Defined.

(** C5: with the 230 that [api_create] stored, 229 is incomplete and 230
    succeeds; with nothing stored, the same. *)
Lemma completion_threshold_witness :
  api_verify store issued (Some (JDict (with_points (JList [sample 0 0; sample 100 229]))))
  = (Failure incomplete, store)
  /\ api_verify store issued
       (Some (JDict (with_points (JList [sample 0 0; sample 100 230]))))
     = (Success (final_token (JStr cid)), delete cid store)
  /\ api_verify ∅ issued
       (Some (JDict (with_points (JList [sample 0 0; sample 100 229]))))
     = (Failure incomplete, ∅).
Proof.
  split_and!.
  - apply (completion_threshold store issued _ issued cid
             [sample 0 0; sample 100 229] [0; 100] [0; 229]
             (envelope_at_issue _) eq_refl eq_refl ltac:(discriminate) eq_refl).
    + apply increasing_spec. reflexivity.
    + simpl. lia.
    + vm_compute. reflexivity.
  - apply (completion_threshold store issued _ issued cid
             [sample 0 0; sample 100 230] [0; 100] [0; 230]
             (envelope_at_issue _) eq_refl eq_refl ltac:(discriminate) eq_refl).
    + apply increasing_spec. reflexivity.
    + simpl. lia.
    + vm_compute. discriminate.
  - apply (completion_threshold ∅ issued _ issued cid
             [sample 0 0; sample 100 229] [0; 100] [0; 229]
             (envelope_at_issue _) eq_refl eq_refl ltac:(discriminate) eq_refl).
    + apply increasing_spec. reflexivity.
    + simpl. lia.
    + vm_compute. reflexivity.
Defined.

(** C6: two samples with the same time. *)
Lemma monotonic_timing_witness :
  api_verify store issued (Some (JDict (with_points (JList [sample 5 0; sample 5 250]))))
  = (Failure bad_timing, store)
  /\ (api_verify store issued (Some (JDict (with_points swipe)))).1 <> Failure bad_timing.
Proof.
  split.
  - apply (proj1 (monotonic_timing store issued _ issued
                    [sample 5 0; sample 5 250] [5; 5] [0; 250]
                    (envelope_at_issue _) eq_refl ltac:(discriminate) eq_refl)
             0%nat 5 5 eq_refl eq_refl).
    lia.
  - apply (monotonic_timing store issued _ issued [sample 0 0; sample 100 250]
             [0; 100] [0; 250]
             (envelope_at_issue _) eq_refl ltac:(discriminate) eq_refl).
    apply increasing_spec. reflexivity.
Defined.

(** C7: the answer of [api_create] sent back with the proof and nothing
    else. *)
Lemma no_points_path_witness :
  dict_item envelope "points" = None
  /\ api_verify store (issued + 30) (Some (JDict envelope))
     = (Success (final_token (JStr cid)), delete cid store).
Proof.
  split; [reflexivity|].
  apply (proj1 (no_points_path store (issued + 30) envelope (or_introl eq_refl))
           issued cid).
  - apply sample_envelope_bare. lia.
  - reflexivity.
Defined.

(** C8: a request sent too late leaves the store as it was. *)
Lemma failure_keeps_store_witness :
  (api_verify store (issued + 500) (Some (JDict envelope))).1 = Failure expired
  /\ (api_verify store (issued + 500) (Some (JDict envelope))).2 = store.
Proof.
  assert (Hfail : (api_verify store (issued + 500) (Some (JDict envelope))).1
                  = Failure expired) by (vm_compute; reflexivity).
  split; [exact Hfail|].
  exact (proj1 (failure_keeps_store store (issued + 500) (Some (JDict envelope)))
               expired Hfail).
Defined.

(** C9: the signature of the answer verifies; ["00"] is refused; sending
    the letter e with an acute accent for a signature raises, and the handler,
    which catches nothing there, ends with the 500 answer rather than with
    [invalid_signature]. *)
Lemma signature_integrity_witness :
  verify_signature (JStr cid) issued (JStr (signature (fst creation))) = Some true
  /\ verify_signature (JStr cid) issued (JStr "00") = Some false
  /\ verify_signature (JStr cid) issued (JStr e_acute) = None.
Proof.
  split_and!.
  - exact (proj1 (signature_integrity (JStr cid) issued)).
  - apply (proj2 (proj2 (signature_integrity (JStr cid) issued)) "00").
    intros E. apply (f_equal String.length) in E. vm_compute in E. discriminate.
  - apply (proj2 (proj2 (signature_integrity (JStr cid) issued)) e_acute).
    intros E. apply (f_equal String.length) in E. vm_compute in E. discriminate.
Defined.

Lemma non_ascii_signature_crashes :
  api_verify store issued
    (Some (JDict [("challenge_id", JStr cid); ("timestamp", JInt issued);
                  ("signature", JStr e_acute)]))
  = (Raised, store).
Proof. vm_compute. reflexivity. Qed.

(** C10: [points] is a string, a number or an object. *)
Lemma non_list_points_skipped_witness :
  api_verify store issued (Some (JDict (with_points (JStr "swipe"))))
  = (Success (final_token (JStr cid)), delete cid store)
  /\ api_verify store issued (Some (JDict (with_points (JInt 7))))
     = (Success (final_token (JStr cid)), delete cid store)
  /\ api_verify store issued (Some (JDict (with_points (JDict [("t", JInt 0)]))))
     = (Success (final_token (JStr cid)), delete cid store).
Proof.
  split_and!.
  - apply (proj2 (non_list_points_skipped store issued (with_points (JStr "swipe")) (JStr "swipe")
                    eq_refl
                    ltac:(discriminate)) issued cid);
      [apply envelope_at_issue | reflexivity].
  - apply (proj2 (non_list_points_skipped store issued (with_points (JInt 7)) (JInt 7)
                    eq_refl
                    ltac:(discriminate)) issued cid);
      [apply envelope_at_issue | reflexivity].
  - apply (proj2 (non_list_points_skipped store issued (with_points (JDict [("t", JInt 0)])) (JDict [("t", JInt 0)])
                    eq_refl
                    ltac:(discriminate)) issued cid);
      [apply envelope_at_issue | reflexivity].
Defined.

(** ** The further properties on the sample requests *)

Lemma cid_not_empty : cid <> "".
Proof. discriminate. Qed.

Lemma issued_not_zero : issued <> 0.
Proof. discriminate. Qed.

(** X3: the challenge of the sample, posted back by the page 5 seconds later
    with the swipe of the scenario, and 121 seconds later. *)
Lemma issue_then_verify_witness :
  api_verify (api_create ∅ cid issued (repeat 7 16)).2 (issued + 5)
    (Some (JDict (page_payload (api_create ∅ cid issued (repeat 7 16)).1
                    [(0, 0); (100, 250)])))
  = (Success (final_token (JStr cid)), delete cid ∅)
  /\ api_verify (api_create ∅ cid issued (repeat 7 16)).2 (issued + 121)
       (Some (JDict (page_payload (api_create ∅ cid issued (repeat 7 16)).1
                       [(0, 0); (100, 250)])))
     = (Failure expired, (api_create ∅ cid issued (repeat 7 16)).2).
Proof.
  split.
  - apply (proj1 (issue_then_verify ∅ cid issued (repeat 7 16) (issued + 5)
                    [(0, 0); (100, 250)] cid_not_empty eq_refl issued_not_zero)).
    + cbn [expires_in api_create fst]. lia.
    + apply increasing_spec. reflexivity.
    + cbn. lia.
    + cbn. lia.
  - apply (proj2 (issue_then_verify ∅ cid issued (repeat 7 16) (issued + 121)
                    [(0, 0); (100, 250)] cid_not_empty eq_refl issued_not_zero)).
    cbn [expires_in api_create fst]. lia.
Defined.

(** X4: the store was empty before the challenge and is empty after it. *)
Lemma issue_then_verify_restores_witness :
  (api_verify (api_create ∅ cid issued (repeat 7 16)).2 (issued + 5)
     (Some (JDict (page_payload (api_create ∅ cid issued (repeat 7 16)).1
                     [(0, 0); (100, 250)])))).2
  = ∅.
Proof.
  apply (issue_then_verify_restores ∅ cid issued (repeat 7 16) (issued + 5)
           [(0, 0); (100, 250)] (lookup_empty cid) cid_not_empty eq_refl
           issued_not_zero).
  - lia.
  - apply increasing_spec. reflexivity.
  - cbn. lia.
  - cbn. lia.
Defined.

(** X6: with a swipe at one time, without [points] at another, on the store
    of the challenge and on an empty one. *)
Lemma token_depends_only_on_id_witness :
  api_verify store (issued + 5) (Some (JDict (with_points swipe))) = (Success token, ∅)
  /\ api_verify ∅ (issued + 90) (Some (JDict envelope)) = (Success token, ∅).
Proof.
  assert (Hfirst : api_verify store (issued + 5) (Some (JDict (with_points swipe)))
                   = (Success token, ∅)) by (vm_compute; reflexivity).
  split; [exact Hfirst|].
  assert (Hsecond : exists token', api_verify ∅ (issued + 90) (Some (JDict envelope))
                                   = (Success token', ∅))
    by (eexists; vm_compute; reflexivity).
  destruct Hsecond as [token' Hsecond].
  now rewrite (token_depends_only_on_id _ _ _ _ _ _ _ _ _ _ Hfirst Hsecond eq_refl).
Defined.

(** X7: the same request one second and two minutes after the challenge. *)
Lemma time_matters_only_for_expiry_witness :
  api_verify store (issued + 1) (Some (JDict (with_points swipe)))
  = api_verify store (issued + 120) (Some (JDict (with_points swipe))).
Proof.
  apply (time_matters_only_for_expiry store (issued + 1) (issued + 120));
    vm_compute; discriminate.
Defined.

(** X8: a swipe that stops at 229, on the store of the challenge and on an
    empty one. *)
Lemma store_never_decides_witness :
  (api_verify store issued
     (Some (JDict (with_points (JList [sample 0 0; sample 100 229]))))).1
  = (api_verify ∅ issued
       (Some (JDict (with_points (JList [sample 0 0; sample 100 229]))))).1.
Proof.
  exact (store_never_decides store issued
           (with_points (JList [sample 0 0; sample 100 229])) cid
           sample_store_created eq_refl).
Defined.

(** X12: the answer of [api_create] sent back without the proof. *)
Lemma proof_is_mandatory_witness :
  api_verify store issued
    (Some (JDict [("challenge_id", JStr cid); ("timestamp", JInt issued);
                  ("signature", JStr (signature (fst creation)))]))
  = (Failure invalid_proof, store).
Proof.
  apply (proof_is_mandatory store issued _ issued).
  - vm_compute. reflexivity.
  - reflexivity.
  - lia.
  - vm_compute. reflexivity.
  - left. reflexivity.
Defined.


(** X14: an object, then a pair. *)
Lemma mixed_samples_parse_witness :
  parse_points [JDict [("t", JInt 0); ("x", JInt 0)]; JList [JInt 100; JInt 250]]
  = Some ([0; 100], [0; 250]).
Proof.
  apply (mixed_samples_parse _ [(0, 0); (100, 250)]).
  constructor; [left; reflexivity|].
  constructor; [right; reflexivity|].
  constructor.
Defined.

(** X15: a good sample followed by an object without ["x"]. *)
Lemma malformed_sample_witness :
  api_verify store issued
    (Some (JDict (with_points (JList [sample 0 0; JDict [("t", JInt 100)]]))))
  = (Failure malformed_points, store).
Proof.
  apply (malformed_sample store issued _ issued
           [sample 0 0; JDict [("t", JInt 100)]] (JDict [("t", JInt 100)])
           (envelope_at_issue _) eq_refl).
  - right. left. reflexivity.
  - do 6 right. eexists. split; [reflexivity|]. right. reflexivity.
Defined.

(** X16: the one sample the page records when the handle is pressed. *)
Lemma single_sample_rejected_witness :
  api_verify store issued (Some (JDict (with_points (JList [sample 0 250]))))
  = (Failure too_fast, store).
Proof.
  exact (single_sample_rejected store issued _ issued (sample 0 250)
           (envelope_at_issue _) eq_refl).
Defined.

(** X17: a swipe that goes back and forth before it ends at 250. *)
Lemma only_last_position_counts_witness :
  api_verify store issued
    (Some (JDict (with_points (JList [sample 0 0; sample 50 900; sample 100 250]))))
  = api_verify store issued
      (Some (JDict (with_points (JList [sample 0 240; sample 50 (-3); sample 100 250])))).
Proof.
  apply (only_last_position_counts store issued
           (with_points (JList [sample 0 0; sample 50 900; sample 100 250]))
           (with_points (JList [sample 0 240; sample 50 (-3); sample 100 250]))
           issued issued
           [sample 0 0; sample 50 900; sample 100 250]
           [sample 0 240; sample 50 (-3); sample 100 250]
           [0; 50; 100] [0; 900; 250] [240; -3; 250]
           (envelope_at_issue _) (envelope_at_issue _) eq_refl eq_refl eq_refl
           ltac:(discriminate) eq_refl eq_refl eq_refl).
Defined.

End Runs.
